(** * Isothermal flux framework: the thermodynamic core, the chart and the drag handlers

    A shallow embedding of [src/utils/thermo.ts], of the chart of
    [src/components/IsenthalpicDiagram.tsx] and of the state handlers of
    [src/App.tsx].

    Number model.  The functions are embedded over the real numbers: the four
    arithmetic operations are exact and [Math.exp] is the real exponential.
    The code computes with binary64 numbers, which round, overflow and
    underflow.  The statements are therefore given on ranges where the real
    inequalities hold with a margin that the rounding cannot consume, or are
    case analyses and monotone bounds that rounding preserves; no statement
    relies on the value of a division by zero.  Where rounding itself decides
    what the code returns, the module [Binary64] evaluates the code over
    binary64 numbers. *)

From Stdlib Require Import Floats.
From Stdlib Require Import Reals Lra List Arith Lia ZArith.
From Stdlib Require Epsilon.
Import ListNotations.

#[local] Set Warnings "-inexact-float".

Local Open Scope R_scope.

(** ** src/utils/thermo.ts *)

Module Thermo.

(** Psychrometric constant (kPa per degree). *)
Definition GAMMA : R := 0.066.

(** Scaling factor for the visual representation of the slope. *)
Definition SLOPE_SCALE : R := 10.

(** [calculateSatVaporPressure], thermo.ts lines 13-15. *)
Definition calculateSatVaporPressure (T : R) : R :=
  0.6108 * exp ((17.27 * T) / (237.3 + T)).

(** The two values of the [regime] field. *)
Inductive Regime : Set :=
| limited
| saturated.

(** The object returned by [calculateIsothermalVaporPressure]. *)
Record IsothermalResult : Set := mkIsothermal {
  eI : R;
  regime : Regime
}.

(** [calculateIsothermalVaporPressure], thermo.ts lines 24-42. *)
Definition calculateIsothermalVaporPressure (Ts Ta : R) : IsothermalResult :=
  let es_star := calculateSatVaporPressure Ts in
  let ea_star := calculateSatVaporPressure Ta in
  let projected_e := es_star - GAMMA * (Ta - Ts) in
  if Rle_dec Ts Ta then
    {| eI := projected_e; regime := limited |}
  else
    {| eI := ea_star; regime := saturated |}.

(** The local constant [denominator] of [calculateLEI], thermo.ts line 50. *)
Definition denominator (ea es_star Ts Ta : R) : R :=
  (es_star - ea) - GAMMA * (Ta - Ts).

(** [calculateLEI], thermo.ts lines 44-63.  The parameter [eI] is received
    and never read, as in the source. *)
Definition calculateLEI (Qn eI ea es_star Ts Ta : R) : R :=
  let denominator := (es_star - ea) - GAMMA * (Ta - Ts) in
  if Req_dec_T denominator 0 then 0
  else if Rle_dec Ts Ta then Qn
  else
    let ea_star := calculateSatVaporPressure Ta in
    Qn * ((ea_star - ea) / denominator).

End Thermo.

(** ** src/components/IsenthalpicDiagram.tsx, the saturation curve *)

Module Diagram.

Import Thermo.

(** The numeric properties of the component.  The two optional callbacks
    [onSurfaceChange] and [onAirChange] are event handlers; the curve does not
    mention them and they are not modelled. *)
Record IsenthalpicDiagramProps : Set := mkProps {
  Ts : R;
  Ta : R;
  ea : R
}.

(** The [padding] object literal. *)
Record Padding : Set := mkPadding {
  top : R;
  right : R;
  bottom : R;
  left : R
}.

Definition width : R := 600.
Definition height : R := 400.
Definition padding : Padding :=
  {| top := 20; right := 30; bottom := 50; left := 60 |}.

Definition minT : R := 0.
Definition maxT : R := 40.
Definition minE : R := 0.
Definition maxE : R := 8.

(** [scaleX] and [scaleY], lines 32-33. *)
Definition scaleX (t : R) : R :=
  left padding + (t - minT) / (maxT - minT) * (width - left padding - right padding).

Definition scaleY (e : R) : R :=
  height - bottom padding
  - (e - minE) / (maxE - minE) * (height - top padding - bottom padding).

(** The string [d] is a sequence of SVG path commands, [M x y] first and one
    [L x y] appended per iteration.  It is modelled as the list of its
    commands; the printing of a number into the string is not modelled. *)
Inductive PathCmd : Set :=
| M (x y : R)
| L (x y : R).

(** The command appended by the loop body at temperature [t], line 52. *)
Definition lineTo (t : R) : PathCmd :=
  L (scaleX t) (scaleY (calculateSatVaporPressure t)).

(** The [for] loop of lines 51-53, entered at its test with the loop variable
    [t] and the string [d] built so far.  A JavaScript loop is not structurally
    recursive, so the model counts iterations down from [fuel]; [None] means
    the fuel ran out before the test [t <= maxT] failed. *)
Fixpoint curveLoop (fuel : nat) (t : R) (d : list PathCmd) : option (list PathCmd) :=
  match fuel with
  | O => None
  | S fuel' =>
      if Rle_dec t maxT then curveLoop fuel' (t + 0.5) (d ++ [lineTo t])
      else Some d
  end.

(** The body of the [useMemo] callback, lines 49-55.  The callback is a
    closure inside the component, so the properties are in its scope; it
    reads none of them. *)
Definition saturationCurvePath (props : IsenthalpicDiagramProps) (fuel : nat)
  : option (list PathCmd) :=
  let d := [M (scaleX minT) (scaleY (calculateSatVaporPressure minT))] in
  curveLoop fuel minT d.

(** The arguments of the [L] commands of a path, read back through the
    temperatures they were drawn at. *)
Definition halfDegree (k : nat) : R := INR k * 0.5.

(** The temperatures [0, 0.5, ..., 40]. *)
Definition sampleTemperatures : list R := map halfDegree (seq 0 81).

(** [invertX] and [invertY], lines 36-46: from a pixel back to a temperature
    or a vapor pressure, clamped to the plotted domain. *)
Definition invertX (x : R) : R :=
  let plotWidth := width - left padding - right padding in
  let t := minT + ((x - left padding) / plotWidth) * (maxT - minT) in
  Rmax minT (Rmin maxT t).

Definition invertY (y : R) : R :=
  let plotHeight := height - top padding - bottom padding in
  let e := minE + ((height - bottom padding - y) / plotHeight) * (maxE - minE) in
  Rmax minE (Rmin maxE e).

(** The centre [(cx, cy)] of the circle drawn for the isothermal point,
    lines 61 and 184. *)
Definition isothermalPoint (props : IsenthalpicDiagramProps) : R * R :=
  let r := calculateIsothermalVaporPressure (Ts props) (Ta props) in
  (scaleX (Ta props), scaleY (eI r)).



(** The two values of the [dragging] state other than [null]. *)
Inductive DragTarget : Set :=
| surface
| air.

(** The rectangle returned by [getBoundingClientRect], with the four fields
    the handler reads. *)
Module DOMRect.
Record t : Set := mk {
  left : R;
  top : R;
  width : R;
  height : R
}.
End DOMRect.

(** The two fields of the mouse event that the handler reads. *)
Record MouseEvent : Set := mkMouseEvent {
  clientX : R;
  clientY : R
}.

(** What [handleMouseMove] does to the outside: at most one call of one of
    the two callbacks. *)
Inductive Callback : Set :=
| onSurfaceChange (newTs : R)
| onAirChange (newTa newEa : R).

(** [handleMouseMove], lines 82-106.  [dragging] is the state of the same
    name ([None] for [null]), [current] is [svgRef.current], and the two
    booleans say whether the optional callbacks were supplied.  The result is
    the callback invoked, if any; [preventDefault] is not modelled. *)
Definition handleMouseMove
    (dragging : option DragTarget) (current : option DOMRect.t)
    (hasSurfaceChange hasAirChange : bool) (e : MouseEvent) : option Callback :=
  match dragging, current with
  | Some target, Some rect =>
      let scaleFactorX := width / DOMRect.width rect in
      let scaleFactorY := height / DOMRect.height rect in
      let mouseX := (clientX e - DOMRect.left rect) * scaleFactorX in
      let mouseY := (clientY e - DOMRect.top rect) * scaleFactorY in
      let newT := invertX mouseX in
      match target with
      | surface =>
          if hasSurfaceChange then Some (onSurfaceChange newT) else None
      | air =>
          let newE := invertY mouseY in
          if hasAirChange then Some (onAirChange newT newE) else None
      end
  | _, _ => None
  end.

(** The accessors of a path command's point. *)
Definition cmdX (c : PathCmd) : R :=
  match c with M x _ | L x _ => x end.

Definition cmdY (c : PathCmd) : R :=
  match c with M _ y | L _ y => y end.

(** The plot rectangle: the part of the viewport inside the padding. *)
Definition inPlot (x y : R) : Prop :=
  left padding <= x <= width - right padding
  /\ top padding <= y <= height - bottom padding.

End Diagram.

(** ** src/App.tsx, the state of the model and its handlers *)

Module App.

Import Thermo.

(** The three values of [activeTab]. *)
Inductive Tab : Set :=
| theory
| model
| calculator.

(** The five [useState] cells of the component. *)
Record State : Set := mkState {
  activeTab : Tab;
  Ta : R;
  Ts : R;
  RH : R;
  Qn : R
}.

(** The initial values given to [useState], lines 8-14. *)
Definition initial : State :=
  {| activeTab := model; Ta := 25; Ts := 20; RH := 60; Qn := 300 |}.

(** The derived values of lines 17-20. *)
Definition ea (st : State) : R :=
  (calculateSatVaporPressure (Ta st) * RH st) / 100.

Definition es_star (st : State) : R :=
  calculateSatVaporPressure (Ts st).

Definition isothermal (st : State) : IsothermalResult :=
  calculateIsothermalVaporPressure (Ts st) (Ta st).

Definition LE_I (st : State) : R :=
  calculateLEI (Qn st) (eI (isothermal st)) (ea st) (es_star st) (Ts st) (Ta st).

(** [handleSurfaceChange], lines 23-25. *)
Definition handleSurfaceChange (newTs : R) (st : State) : State :=
  {| activeTab := activeTab st; Ta := Ta st; Ts := newTs;
     RH := RH st; Qn := Qn st |}.

(** [handleAirChange], lines 27-42: the two tests on [newRH] run one after
    the other on the same variable. *)
Definition handleAirChange (newTa newEa : R) (st : State) : State :=
  let newEs := calculateSatVaporPressure newTa in
  let newRH := (newEa / newEs) * 100 in
  let newRH := if Rgt_dec newRH 100 then 100 else newRH in
  let newRH := if Rlt_dec newRH 0 then 0 else newRH in
  {| activeTab := activeTab st; Ta := newTa; Ts := Ts st;
     RH := newRH; Qn := Qn st |}.


(** The effect on the state of a callback invoked by the diagram: the
    diagram is given [handleSurfaceChange] and [handleAirChange]. *)
Definition invoke (c : option Diagram.Callback) (st : State) : State :=
  match c with
  | Some (Diagram.onSurfaceChange newTs) => handleSurfaceChange newTs st
  | Some (Diagram.onAirChange newTa newEa) => handleAirChange newTa newEa st
  | None => st
  end.

(** A mouse move over the diagram rendered from [st]: both callbacks are
    supplied. *)
Definition mouseMove
    (dragging : option Diagram.DragTarget) (current : option Diagram.DOMRect.t)
    (e : Diagram.MouseEvent) (st : State) : State :=
  invoke (Diagram.handleMouseMove dragging current true true e) st.

(** The ranges that the sliders and the drag handlers keep the state in. *)
Definition inRange (st : State) : Prop :=
  0 <= Ta st <= 40 /\ 0 <= Ts st <= 40 /\ 0 <= RH st <= 100.

End App.

(** ** [calculateSatVaporPressure] over binary64

    The same function over IEEE 754 binary64, the numbers the code computes
    with: the arithmetic is that of the primitive floating-point numbers, the
    decimal constants are read to the nearest binary64 number as the compiler
    of the source reads them.  It is used to evaluate the code at inputs
    where rounding decides the result. *)

Module Binary64.

(** The real number that a finite binary64 number stands for. *)
Definition value (x : float) : R :=
  match Prim2SF x with
  | S754_finite s m e => (if s then -1 else 1) * IZR (Z.pos m) * powerRZ 2 e
  | _ => 0
  end.

(** [f] is a finite binary64 number nearest to the real number [r]. *)
Definition nearest (r : R) (f : float) : Prop :=
  is_finite f = true
  /\ forall g : float, is_finite g = true ->
       Rabs (value f - r) <= Rabs (value g - r).

(** [Math.exp] is a built-in of the JavaScript engine, not code of this
    repository, and ECMA-262 leaves its last digit to the implementation.  It
    is modelled as the exponential rounded to nearest: NaN for NaN, the limits
    at the two infinities, 0 for a result of at most [2^-1075] (half the
    smallest positive binary64 number), infinity from [2^1024 - 2^970] (half
    way beyond the largest), and a nearest binary64 number in between. *)
Definition Math_exp (x : float) : float :=
  if is_nan x then nan
  else if is_infinity x then (if (x <? 0)%float then 0%float else infinity)
  else
    let r := exp (value x) in
    if Rle_dec r (powerRZ 2 (-1075)) then 0%float
    else if Rle_dec (powerRZ 2 1024 - powerRZ 2 970) r then infinity
    else Epsilon.epsilon (inhabits 0%float) (nearest r).

(** [calculateSatVaporPressure], thermo.ts lines 13-15. *)
Definition calculateSatVaporPressure (T : float) : float :=
  (0.6108 * Math_exp ((17.27 * T) / (237.3 + T)))%float.

End Binary64.

(** ** Auxiliary notions used by the statements *)

Module Pole.

(** The argument handed to [Math.exp] by [calculateSatVaporPressure]. *)
Definition exponent (T : R) : R := (17.27 * T) / (237.3 + T).

(** The formula has a pole at [T = -237.3]; two temperatures are on the same
    side of it when both are above or both are below. *)
Definition same_side_of_pole (T1 T2 : R) : Prop :=
  -237.3 < T1 /\ -237.3 < T2 \/ T1 < -237.3 /\ T2 < -237.3.

End Pole.

(** ** Properties of the thermodynamic core *)

Import Thermo Pole.

(** *** The exponent of the Tetens/Magnus formula *)

Section SameSide.

Variables T1 T2 : R.
Hypothesis side : same_side_of_pole T1 T2.
Hypothesis below : T1 < T2.

Lemma pole_avoided : 237.3 + T1 <> 0 /\ 237.3 + T2 <> 0.
Proof.
  destruct side as [[? ?] | [? ?]]; split; lra.
Qed.

Lemma exponent_difference :
  exponent T2 - exponent T1
  = (17.27 * 237.3 * (T2 - T1)) / ((237.3 + T1) * (237.3 + T2)).
Proof.
  unfold exponent. field. destruct pole_avoided; split; assumption.
Qed.

Lemma exponent_increasing : exponent T1 < exponent T2.
Proof.
  apply Rlt_0_minus. rewrite exponent_difference.
  apply Rdiv_lt_0_compat.
  - nra.
  - destruct side as [[Ha Hb] | [Ha Hb]]; nra.
Qed.

Lemma sat_increasing_same_side :
  calculateSatVaporPressure T1 < calculateSatVaporPressure T2.
Proof.
  unfold calculateSatVaporPressure.
  apply Rmult_lt_compat_l; [lra |].
  apply exp_increasing. exact exponent_increasing.
Qed.

End SameSide.

Lemma sat_positive (T : R) : 0 < calculateSatVaporPressure T.
Proof.
  unfold calculateSatVaporPressure.
  apply Rmult_lt_0_compat; [lra | apply exp_pos].
Qed.



(** *** The guard and the two regimes of [calculateLEI] *)

Lemma calculateLEI_zero_denominator (Qn eI ea es_star Ts Ta : R) :
  denominator ea es_star Ts Ta = 0 ->
  calculateLEI Qn eI ea es_star Ts Ta = 0.
Proof.
  unfold calculateLEI, denominator. intros Hden.
  destruct (Req_dec_T _ 0) as [_ | Hne]; [reflexivity | contradiction].
Qed.

Lemma calculateLEI_limited (Qn eI ea es_star Ts Ta : R) :
  denominator ea es_star Ts Ta <> 0 -> Ts <= Ta ->
  calculateLEI Qn eI ea es_star Ts Ta = Qn.
Proof.
  unfold calculateLEI, denominator. intros Hden Hle.
  destruct (Req_dec_T _ 0) as [Heq | _]; [contradiction |].
  destruct (Rle_dec Ts Ta) as [_ | Hgt]; [reflexivity | contradiction].
Qed.

Lemma calculateLEI_saturated (Qn eI ea es_star Ts Ta : R) :
  denominator ea es_star Ts Ta <> 0 -> Ta < Ts ->
  calculateLEI Qn eI ea es_star Ts Ta
  = Qn * ((calculateSatVaporPressure Ta - ea) / denominator ea es_star Ts Ta).
Proof.
  unfold calculateLEI, denominator. intros Hden Hlt.
  destruct (Req_dec_T _ 0) as [Heq | _]; [contradiction |].
  destruct (Rle_dec Ts Ta) as [Hle | _]; [lra | reflexivity].
Qed.

(** *** Claims about [calculateLEI] *)

(** C1, as stated, fails: with [Ts = Ta = 20] and [ea = es_star = 2] the
    denominator is zero, the guard of line 52 fires before the regime test and
    the function returns 0 although [Ts <= Ta] and [Qn = 100]. *)
Lemma C1_guard_precedes_limited_regime :
  20 <= 20 /\ calculateLEI 100 0 2 2 20 20 = 0 /\ calculateLEI 100 0 2 2 20 20 <> 100.
Proof.
  assert (H0 : calculateLEI 100 0 2 2 20 20 = 0).
  { apply calculateLEI_zero_denominator. unfold denominator, GAMMA. lra. }
  repeat split; [lra | exact H0 | rewrite H0; lra].
Qed.

(** C1, amended: for [Ts <= Ta] and every [Qn], [eI], [ea], [es_star] whose
    denominator [(es_star - ea) - GAMMA * (Ta - Ts)] is not zero,
    [calculateLEI] returns exactly [Qn]. *)
Theorem C1_limited_regime_returns_Qn (Qn eI ea es_star Ts Ta : R) :
  Ts <= Ta ->
  (es_star - ea) - GAMMA * (Ta - Ts) <> 0 ->
  calculateLEI Qn eI ea es_star Ts Ta = Qn.
Proof.
  intros Hle Hden. now apply calculateLEI_limited.
Qed.

Lemma C1_limited_regime_returns_Qn_witness :
  10 <= 20 /\ (2 - 1) - GAMMA * (20 - 10) <> 0 /\ calculateLEI 300 0 1 2 10 20 = 300.
Proof.
  assert (Hle : 10 <= 20) by lra.
  assert (Hden : (2 - 1) - GAMMA * (20 - 10) <> 0) by (unfold GAMMA; lra).
  exact (conj Hle (conj Hden (C1_limited_regime_returns_Qn 300 0 1 2 10 20 Hle Hden))).
Defined.

(** C5: when the denominator [(es_star - ea) - GAMMA * (Ta - Ts)] is zero
    [calculateLEI] returns 0; when it is not zero the guard is passed and the
    function returns the value of its regime, [Qn] for [Ts <= Ta] and the
    ratio [Qn * ((e*(Ta) - ea) / denominator)] for [Ts > Ta]. *)
Theorem C5_zero_denominator_guard (Qn eI ea es_star Ts Ta : R) :
  ((es_star - ea) - GAMMA * (Ta - Ts) = 0 ->
     calculateLEI Qn eI ea es_star Ts Ta = 0)
  /\ ((es_star - ea) - GAMMA * (Ta - Ts) <> 0 ->
        (Ts <= Ta -> calculateLEI Qn eI ea es_star Ts Ta = Qn)
        /\ (Ts > Ta ->
              calculateLEI Qn eI ea es_star Ts Ta
              = Qn * ((calculateSatVaporPressure Ta - ea)
                      / ((es_star - ea) - GAMMA * (Ta - Ts))))).
Proof.
  split.
  - apply calculateLEI_zero_denominator.
  - intros Hden. split; intros Hreg.
    + now apply calculateLEI_limited.
    + now apply calculateLEI_saturated.
Qed.

(** C8: the result of [calculateLEI] does not depend on its [eI] argument. *)
Theorem C8_calculateLEI_ignores_eI (Qn eI1 eI2 ea es_star Ts Ta : R) :
  calculateLEI Qn eI1 ea es_star Ts Ta = calculateLEI Qn eI2 ea es_star Ts Ta.
Proof.
  reflexivity.
Qed.





(** *** Claims about [calculateSatVaporPressure] *)




(** **** Binary64 evaluation next to the pole *)

Lemma exp_minus_nat (n : nat) : exp (- INR n) <= (/ 2) ^ n.
Proof.
  induction n as [| n IH].
  - simpl. rewrite Ropp_0, exp_0. lra.
  - rewrite S_INR.
    replace (- (INR n + 1)) with (- INR n + - 1) by ring.
    rewrite exp_plus. simpl.
    pose proof (exp_pos (- INR n)) as Hpos.
    pose proof (exp_pos (-1)) as Hpos1.
    assert (Hhalf : exp (-1) <= / 2).
    { pose proof (exp_ineq1_le 1) as H2.
      assert (Hprod : exp 1 * exp (-1) = 1).
      { rewrite <- exp_plus. replace (1 + -1) with 0 by ring. apply exp_0. }
      nra. }
    assert (0 <= (/ 2) ^ n) by (apply pow_le; lra).
    nra.
Qed.

(** Below -1075 the exponential is under half the smallest positive
    binary64 number, and [Math.exp] returns 0. *)
Lemma Math_exp_underflow (x : float) :
  is_nan x = false -> is_infinity x = false ->
  Binary64.value x <= -1075 ->
  Binary64.Math_exp x = 0%float.
Proof.
  intros Hnan Hinf Hx. unfold Binary64.Math_exp.
  rewrite Hnan, Hinf. cbv zeta.
  destruct (Rle_dec (exp (Binary64.value x)) (powerRZ 2 (-1075))) as [_ | Hbig];
    [reflexivity | exfalso; apply Hbig].
  change (powerRZ 2 (-1075)) with (/ 2 ^ Pos.to_nat 1075).
  rewrite <- pow_inv.
  apply Rle_trans with (exp (- INR (Pos.to_nat 1075))).
  - assert (HN : INR (Pos.to_nat 1075) = 1075)
      by (rewrite INR_IZR_INZ, positive_nat_Z; reflexivity).
    rewrite HN.
    destruct (Req_dec_T (Binary64.value x) (-1075)) as [-> | Hne].
    + right. apply f_equal. lra.
    + left. apply exp_increasing. lra.
  - apply exp_minus_nat.
Qed.

(** The argument of [Math.exp] at -237 degrees is the binary64 number
    -7500483495617866 / 2^39, about -13643.3. *)
Lemma exponent_at_minus_237 :
  Binary64.value ((17.27 * -237) / (237.3 + -237))%float <= -1075.
Proof.
  unfold Binary64.value.
  replace (Prim2SF ((17.27 * -237) / (237.3 + -237))%float)
    with (S754_finite true 7500483495617866 (-39)) by (vm_compute; reflexivity).
  change (powerRZ 2 (-39)) with (/ 2 ^ 39).
  assert (H39 : 2 ^ 39 = 549755813888) by (simpl; lra).
  rewrite H39. lra.
Qed.

(** At -236 degrees it is -6894310048552553 / 2^41, about -3135.2. *)
Lemma exponent_at_minus_236 :
  Binary64.value ((17.27 * -236) / (237.3 + -236))%float <= -1075.
Proof.
  unfold Binary64.value.
  replace (Prim2SF ((17.27 * -236) / (237.3 + -236))%float)
    with (S754_finite true 6894310048552553 (-41)) by (vm_compute; reflexivity).
  change (powerRZ 2 (-41)) with (/ 2 ^ 41).
  assert (H41 : 2 ^ 41 = 2199023255552) by (simpl; lra).
  rewrite H41. lra.
Qed.

Lemma Binary64_sat_at_minus_237 :
  Binary64.calculateSatVaporPressure (-237) = 0%float.
Proof.
  unfold Binary64.calculateSatVaporPressure.
  rewrite Math_exp_underflow.
  - vm_compute. reflexivity.
  - vm_compute. reflexivity.
  - vm_compute. reflexivity.
  - apply exponent_at_minus_237.
Qed.

Lemma Binary64_sat_at_minus_236 :
  Binary64.calculateSatVaporPressure (-236) = 0%float.
Proof.
  unfold Binary64.calculateSatVaporPressure.
  rewrite Math_exp_underflow.
  - vm_compute. reflexivity.
  - vm_compute. reflexivity.
  - vm_compute. reflexivity.
  - apply exponent_at_minus_236.
Qed.

(** In binary64 the function is flat next to the pole: -237 < -236, both above
    the pole, and both values are 0. *)
Lemma Binary64_sat_flat_next_to_pole :
  (-237.3 <? -237)%float = true
  /\ (-237 <? -236)%float = true
  /\ (Binary64.calculateSatVaporPressure (-237)
      <? Binary64.calculateSatVaporPressure (-236))%float = false.
Proof.
  rewrite Binary64_sat_at_minus_237, Binary64_sat_at_minus_236.
  repeat split; vm_compute; reflexivity.
Qed.




(** *** Claims about [calculateIsothermalVaporPressure] *)

(** C2: for [Ts <= Ta] the function returns regime [limited] with [eI] the
    isenthalpic projection [e*(Ts) - GAMMA * (Ta - Ts)]; for [Ts > Ta] it
    returns regime [saturated] with [eI] the saturation value [e*(Ta)]. *)
Theorem C2_regime_selection (Ts Ta : R) :
  (Ts <= Ta ->
     calculateIsothermalVaporPressure Ts Ta
     = {| eI := calculateSatVaporPressure Ts - GAMMA * (Ta - Ts);
          regime := limited |})
  /\ (Ts > Ta ->
        calculateIsothermalVaporPressure Ts Ta
        = {| eI := calculateSatVaporPressure Ta; regime := saturated |}).
Proof.
  unfold calculateIsothermalVaporPressure.
  destruct (Rle_dec Ts Ta) as [Hle | Hgt]; split; intros H;
    first [reflexivity | lra].
Qed.

(** In the saturated regime the value [e*(Ta)] is the projection capped at
    saturation, for temperatures on the same side of the pole: the projection
    is above [e*(Ta)], so the smaller of the two is [e*(Ta)]. *)
Lemma saturated_eI_is_capped_projection (Ts Ta : R) :
  same_side_of_pole Ta Ts -> Ts > Ta ->
  eI (calculateIsothermalVaporPressure Ts Ta)
  = Rmin (calculateSatVaporPressure Ts - GAMMA * (Ta - Ts))
         (calculateSatVaporPressure Ta).
Proof.
  intros Hside Hgt.
  pose proof (sat_increasing_same_side Ta Ts Hside Hgt) as Hmono.
  unfold calculateIsothermalVaporPressure.
  destruct (Rle_dec Ts Ta) as [Hle | _]; [lra |]. simpl.
  rewrite Rmin_right; [reflexivity | unfold GAMMA; lra].
Qed.

(** C9: at [Ts = Ta = T] the function takes the energy-limited branch and
    returns the formula [e*(Ts) - GAMMA * (Ta - Ts)] there, this value equals
    the energy-saturated value [e*(Ta)], and it is the [eI] that the
    energy-saturated branch returns for every [Ts > T] at the same air
    temperature: the returned [eI] agrees between the two branches at the
    boundary. *)
Theorem C9_eI_continuous_at_boundary (T Ts : R) :
  eI (calculateIsothermalVaporPressure T T)
  = calculateSatVaporPressure T - GAMMA * (T - T)
  /\ calculateSatVaporPressure T - GAMMA * (T - T) = calculateSatVaporPressure T
  /\ (Ts > T ->
      eI (calculateIsothermalVaporPressure Ts T)
      = eI (calculateIsothermalVaporPressure T T)).
Proof.
  assert (Hproj : calculateSatVaporPressure T - GAMMA * (T - T)
                  = calculateSatVaporPressure T) by ring.
  assert (Hat : eI (calculateIsothermalVaporPressure T T)
                = calculateSatVaporPressure T - GAMMA * (T - T)).
  { unfold calculateIsothermalVaporPressure.
    destruct (Rle_dec T T) as [_ | Hn]; [reflexivity | exfalso; lra]. }
  split; [exact Hat | split; [exact Hproj |]].
  intros Hgt. rewrite Hat, Hproj.
  unfold calculateIsothermalVaporPressure.
  destruct (Rle_dec Ts T) as [Hle | _]; [exfalso; lra | reflexivity].
Qed.

(** ** Properties of the saturation-curve loop *)

Import Diagram.

Lemma halfDegree_succ (k : nat) : halfDegree (S k) = halfDegree k + 0.5.
Proof.
  unfold halfDegree. rewrite S_INR. ring.
Qed.

Lemma halfDegree_le_maxT (k : nat) : (k <= 80)%nat -> halfDegree k <= maxT.
Proof.
  intros Hk. apply le_INR in Hk.
  replace (INR 80) with 80 in Hk by (rewrite INR_IZR_INZ; reflexivity).
  unfold halfDegree, maxT. lra.
Qed.

Lemma halfDegree_81_above_maxT : ~ halfDegree 81 <= maxT.
Proof.
  unfold halfDegree, maxT.
  replace (INR 81) with 81 by (rewrite INR_IZR_INZ; reflexivity).
  lra.
Qed.

(** The loop entered at the [k]-th half degree with [n] half degrees left up
    to 40 appends exactly those [n] commands, given more than [n] units of
    fuel ([n] passes through the body and the last, failing test). *)
Lemma curveLoop_from (n : nat) :
  forall (k fuel : nat) (d : list PathCmd),
    (k + n = 81)%nat -> (n < fuel)%nat ->
    curveLoop fuel (halfDegree k) d
    = Some (d ++ map lineTo (map halfDegree (seq k n))).
Proof.
  induction n as [| n IH]; intros k fuel d Hk Hfuel.
  - destruct fuel as [| fuel]; [lia |]. simpl.
    replace k with 81%nat by lia.
    destruct (Rle_dec (halfDegree 81) maxT) as [Hle | _].
    + exfalso. exact (halfDegree_81_above_maxT Hle).
    + now rewrite app_nil_r.
  - destruct fuel as [| fuel]; [lia |]. simpl.
    destruct (Rle_dec (halfDegree k) maxT) as [_ | Hgt].
    + rewrite <- halfDegree_succ.
      rewrite IH by lia.
      now rewrite <- app_assoc.
    + exfalso. apply Hgt, halfDegree_le_maxT. lia.
Qed.

(** With no more fuel than half degrees left, the loop does not reach its
    exit. *)
Lemma curveLoop_starved (fuel : nat) :
  forall (k n : nat) (d : list PathCmd),
    (k + n = 81)%nat -> (fuel <= n)%nat ->
    curveLoop fuel (halfDegree k) d = None.
Proof.
  induction fuel as [| fuel IH]; intros k n d Hk Hfuel; [reflexivity |].
  simpl.
  destruct (Rle_dec (halfDegree k) maxT) as [_ | Hgt].
  - rewrite <- halfDegree_succ. apply (IH (S k) (n - 1)%nat); lia.
  - exfalso. apply Hgt, halfDegree_le_maxT. lia.
Qed.

Lemma halfDegree_0 : halfDegree 0 = minT.
Proof.
  unfold halfDegree, minT. simpl. ring.
Qed.

Lemma saturationCurvePath_result (props : IsenthalpicDiagramProps) (fuel : nat) :
  (82 <= fuel)%nat ->
  saturationCurvePath props fuel
  = Some (M (scaleX minT) (scaleY (calculateSatVaporPressure minT))
            :: map lineTo sampleTemperatures).
Proof.
  intros Hfuel. unfold saturationCurvePath, sampleTemperatures.
  set (d := [M (scaleX minT) (scaleY (calculateSatVaporPressure minT))]).
  pose proof (curveLoop_from 81 0 fuel d eq_refl Hfuel) as Hloop.
  rewrite halfDegree_0 in Hloop. exact Hloop.
Qed.

Lemma saturationCurvePath_starved (props : IsenthalpicDiagramProps) (fuel : nat) :
  (fuel <= 81)%nat -> saturationCurvePath props fuel = None.
Proof.
  intros Hfuel. unfold saturationCurvePath.
  set (d := [M (scaleX minT) (scaleY (calculateSatVaporPressure minT))]).
  pose proof (curveLoop_starved fuel 0 81 d eq_refl Hfuel) as Hloop.
  rewrite halfDegree_0 in Hloop. exact Hloop.
Qed.

Lemma sampleTemperatures_nth (k : nat) :
  (k < 81)%nat -> nth k sampleTemperatures 0 = INR k * 0.5.
Proof.
  intros Hk. unfold sampleTemperatures.
  rewrite (nth_indep _ 0 (halfDegree 0)) by (rewrite length_map, length_seq; lia).
  rewrite map_nth, seq_nth by lia. reflexivity.
Qed.

(** C7: given enough fuel for its 81 iterations, the loop ends and the path
    is the initial [M] command followed by one [L] command for each of the 81
    temperatures [t = 0, 0.5, ..., 40], drawn at
    [(scaleX t, scaleY (calculateSatVaporPressure t))]; the path, and with it
    the sampled temperatures and their number, is the same for all values of
    the component's properties. *)
Theorem C7_saturation_curve_sampling (props : IsenthalpicDiagramProps) (fuel : nat) :
  (82 <= fuel)%nat ->
  saturationCurvePath props fuel
  = Some (M (scaleX 0) (scaleY (calculateSatVaporPressure 0))
            :: map (fun t : R => L (scaleX t) (scaleY (calculateSatVaporPressure t)))
                   sampleTemperatures)
  /\ length sampleTemperatures = 81%nat
  /\ (forall k : nat, (k < 81)%nat -> nth k sampleTemperatures 0 = INR k * 0.5)
  /\ nth 0 sampleTemperatures 0 = 0
  /\ nth 80 sampleTemperatures 0 = 40
  /\ (forall (props' : IsenthalpicDiagramProps) (fuel' : nat),
        (82 <= fuel')%nat ->
        saturationCurvePath props' fuel' = saturationCurvePath props fuel).
Proof.
  intros Hfuel. repeat split.
  - now apply saturationCurvePath_result.
  - exact sampleTemperatures_nth.
  - rewrite sampleTemperatures_nth by lia. simpl. ring.
  - rewrite sampleTemperatures_nth by lia.
    replace (INR 80) with 80 by (rewrite INR_IZR_INZ; reflexivity). lra.
  - intros props' fuel' Hfuel'.
    now rewrite !saturationCurvePath_result.
Qed.

Lemma C7_saturation_curve_sampling_witness :
  (82 <= 100)%nat
  /\ saturationCurvePath {| Ts := 20; Ta := 25; ea := 1.9 |} 100
     = Some (M (scaleX 0) (scaleY (calculateSatVaporPressure 0))
               :: map (fun t : R => L (scaleX t) (scaleY (calculateSatVaporPressure t)))
                      sampleTemperatures).
Proof.
  assert (Hfuel : (82 <= 100)%nat) by lia.
  exact (conj Hfuel
           (proj1 (C7_saturation_curve_sampling
                     {| Ts := 20; Ta := 25; ea := 1.9 |} 100 Hfuel))).
Defined.

(** ** Properties of the diagram's scales *)

(** A tactic for goals about the two scales and their inverses: unfold the
    layout constants, split the clamps of [Rmax] and [Rmin] into cases and
    leave linear arithmetic. *)
Ltac unfold_layout :=
  unfold invertX, invertY, scaleX, scaleY, inPlot,
         minT, maxT, minE, maxE, width, height, padding in *;
  simpl in *.

(** The clamp [Math.max(lo, Math.min(hi, v))]. *)
Lemma clamp_spec (lo hi v : R) :
  lo <= hi ->
  lo <= Rmax lo (Rmin hi v) <= hi
  /\ (v <= lo -> Rmax lo (Rmin hi v) = lo)
  /\ (hi <= v -> Rmax lo (Rmin hi v) = hi)
  /\ (lo <= v <= hi -> Rmax lo (Rmin hi v) = v).
Proof.
  intros Hlohi. unfold Rmin.
  destruct (Rle_dec hi v) as [Hv | Hv]; unfold Rmax;
    [destruct (Rle_dec lo hi) | destruct (Rle_dec lo v)];
    repeat split; try intros; lra.
Qed.

Lemma scaleX_affine (t : R) : scaleX t = 60 + 12.75 * t.
Proof.
  unfold_layout. lra.
Qed.

Lemma scaleY_affine (e : R) : scaleY e = 350 - 41.25 * e.
Proof.
  unfold_layout. lra.
Qed.

Lemma invertX_clamp (x : R) :
  invertX x = Rmax 0 (Rmin 40 ((x - 60) / 12.75)).
Proof.
  unfold_layout. f_equal. f_equal. lra.
Qed.

Lemma invertY_clamp (y : R) :
  invertY y = Rmax 0 (Rmin 8 ((350 - y) / 41.25)).
Proof.
  unfold_layout. f_equal. f_equal. lra.
Qed.

Lemma invertX_in_domain (x : R) : 0 <= invertX x <= 40.
Proof.
  rewrite invertX_clamp. apply clamp_spec. lra.
Qed.

Lemma invertY_in_domain (y : R) : 0 <= invertY y <= 8.
Proof.
  rewrite invertY_clamp. apply clamp_spec. lra.
Qed.

(** X3: whatever the pixel, [invertX] answers a temperature of the plotted
    domain and [invertY] a vapor pressure of the plotted domain; a pixel left
    of the plot gives [minT], right of it [maxT], below it [minE] and above
    it [maxE]. *)
Theorem invert_clamps_to_domain (x y : R) :
  (minT <= invertX x <= maxT)
  /\ (minE <= invertY y <= maxE)
  /\ (x <= left padding -> invertX x = minT)
  /\ (width - right padding <= x -> invertX x = maxT)
  /\ (height - bottom padding <= y -> invertY y = minE)
  /\ (y <= top padding -> invertY y = maxE).
Proof.
  rewrite invertX_clamp, invertY_clamp.
  unfold_layout.
  assert (H40 : 0 <= 40) by lra.
  assert (H8 : 0 <= 8) by lra.
  destruct (clamp_spec 0 40 ((x - 60) / 12.75) H40) as (Hxb & Hxlo & Hxhi & _).
  destruct (clamp_spec 0 8 ((350 - y) / 41.25) H8) as (Hyb & Hylo & Hyhi & _).
  repeat split; try intros H;
    first [apply Hxb | apply Hyb | apply Hxlo | apply Hxhi | apply Hylo | apply Hyhi];
    lra.
Qed.

(** X4: [scaleX] never decreases and [scaleY] never increases (the row 0 is
    the top of the picture); the plotted domain is mapped into the plot
    rectangle, with the ends of the domain on the edges of the rectangle. *)
Theorem scales_monotone_onto_plot (a b : R) :
  (a <= b -> scaleX a <= scaleX b)
  /\ (a <= b -> scaleY b <= scaleY a)
  /\ (minT <= a <= maxT -> minE <= b <= maxE -> inPlot (scaleX a) (scaleY b))
  /\ scaleX minT = left padding
  /\ scaleX maxT = width - right padding
  /\ scaleY minE = height - bottom padding
  /\ scaleY maxE = top padding.
Proof.
  rewrite !scaleX_affine, !scaleY_affine.
  unfold_layout.
  repeat split; try intros; lra.
Qed.

(** ** The energy-limited branch *)

Lemma isothermal_limited (Ts Ta : R) :
  Ts <= Ta ->
  calculateIsothermalVaporPressure Ts Ta
  = {| eI := calculateSatVaporPressure Ts - GAMMA * (Ta - Ts); regime := limited |}.
Proof.
  intros Hle. unfold calculateIsothermalVaporPressure.
  destruct (Rle_dec Ts Ta); [reflexivity | contradiction].
Qed.

(** ** The saturation curve stays inside the plot *)

(** An upper bound of the exponential below 1, from [1 - x <= exp (- x)]. *)
Lemma exp_le_inv (x : R) : x < 1 -> exp x <= / (1 - x).
Proof.
  intros Hx.
  pose proof (exp_ineq1_le (- x)) as Hlow.
  pose proof (exp_pos x) as Hpos.
  assert (Hprod : exp x * exp (- x) = 1).
  { rewrite <- exp_plus. replace (x + - x) with 0 by ring. apply exp_0. }
  assert (Hinv : / (1 - x) * (1 - x) = 1) by (field; lra).
  assert (Hinvpos : 0 < / (1 - x)) by (apply Rinv_0_lt_compat; lra).
  nra.
Qed.

Lemma exp_double_le (y b : R) : exp y <= b -> exp (2 * y) <= b * b.
Proof.
  intros Hb. pose proof (exp_pos y) as Hpos.
  replace (2 * y) with (y + y) by ring. rewrite exp_plus. nra.
Qed.

(** [exp 2.4912 <= 12.801], by six doublings from [exp 0.038925]. *)
Lemma exp_bound_at_40 : exp 2.4912 <= 12.801.
Proof.
  assert (H0 : exp 0.038925 <= 1.0406).
  { eapply Rle_trans; [apply exp_le_inv; lra |].
    apply Rmult_le_reg_r with (1 - 0.038925); [lra |].
    rewrite Rinv_l by lra. lra. }
  assert (H1 : exp (2 * 0.038925) <= 1.0829)
    by (eapply Rle_trans; [apply exp_double_le, H0 | lra]).
  assert (H2 : exp (2 * (2 * 0.038925)) <= 1.1727)
    by (eapply Rle_trans; [apply exp_double_le, H1 | lra]).
  assert (H3 : exp (2 * (2 * (2 * 0.038925))) <= 1.3753)
    by (eapply Rle_trans; [apply exp_double_le, H2 | lra]).
  assert (H4 : exp (2 * (2 * (2 * (2 * 0.038925)))) <= 1.8915)
    by (eapply Rle_trans; [apply exp_double_le, H3 | lra]).
  assert (H5 : exp (2 * (2 * (2 * (2 * (2 * 0.038925))))) <= 3.5778)
    by (eapply Rle_trans; [apply exp_double_le, H4 | lra]).
  assert (H6 : exp (2 * (2 * (2 * (2 * (2 * (2 * 0.038925)))))) <= 12.801)
    by (eapply Rle_trans; [apply exp_double_le, H5 | lra]).
  replace 2.4912 with (2 * (2 * (2 * (2 * (2 * (2 * 0.038925)))))) by lra.
  exact H6.
Qed.

Lemma sat_at_0 : calculateSatVaporPressure 0 = 0.6108.
Proof.
  unfold calculateSatVaporPressure.
  replace ((17.27 * 0) / (237.3 + 0)) with 0 by lra.
  rewrite exp_0. ring.
Qed.

Lemma sat_at_40 : calculateSatVaporPressure 40 < 7.82.
Proof.
  unfold calculateSatVaporPressure.
  assert (Hx : (17.27 * 40) / (237.3 + 40) < 2.4912) by lra.
  apply exp_increasing in Hx.
  pose proof exp_bound_at_40. lra.
Qed.

(** On the plotted temperatures the saturation vapor pressure stays between
    0.6108 kPa and 7.82 kPa, inside the plotted pressures. *)
Lemma sat_on_plotted_domain (t : R) :
  minT <= t <= maxT -> 0.6108 <= calculateSatVaporPressure t < 7.82.
Proof.
  unfold minT, maxT. intros [Hlo Hhi].
  pose proof sat_at_0 as H0. pose proof sat_at_40 as H40.
  assert (Hlow : 0.6108 <= calculateSatVaporPressure t).
  { destruct (Req_dec_T t 0) as [-> | Hne]; [lra |].
    pose proof (sat_increasing_same_side 0 t) as Hinc.
    assert (same_side_of_pole 0 t) by (left; lra).
    assert (0 < t) by lra. specialize (Hinc ltac:(assumption) ltac:(assumption)).
    lra. }
  split; [exact Hlow |].
  destruct (Req_dec_T t 40) as [-> | Hne]; [exact H40 |].
  pose proof (sat_increasing_same_side t 40) as Hinc.
  assert (same_side_of_pole t 40) by (left; lra).
  assert (t < 40) by lra. specialize (Hinc ltac:(assumption) ltac:(assumption)).
  lra.
Qed.

Lemma saturationCurvePath_inversion (props : IsenthalpicDiagramProps) (fuel : nat)
    (d : list PathCmd) :
  saturationCurvePath props fuel = Some d ->
  d = M (scaleX minT) (scaleY (calculateSatVaporPressure minT))
        :: map lineTo sampleTemperatures.
Proof.
  intros Hd. destruct (le_lt_dec fuel 81) as [Hfew | Hmany].
  - rewrite saturationCurvePath_starved in Hd by exact Hfew. discriminate.
  - rewrite saturationCurvePath_result in Hd by lia. now injection Hd.
Qed.

Lemma halfDegree_on_plotted_domain (k : nat) :
  (k < 81)%nat -> minT <= halfDegree k <= maxT.
Proof.
  intros Hk. split.
  - unfold halfDegree, minT. pose proof (pos_INR k). lra.
  - apply halfDegree_le_maxT. lia.
Qed.

Lemma lineTo_inPlot (t : R) :
  minT <= t <= maxT -> inPlot (cmdX (lineTo t)) (cmdY (lineTo t)).
Proof.
  intros Ht. pose proof (sat_on_plotted_domain t Ht) as He.
  unfold lineTo. simpl. rewrite scaleX_affine, scaleY_affine.
  unfold_layout. lra.
Qed.

Lemma path_nth_line (j : nat) (c0 : PathCmd) :
  (j < 81)%nat ->
  nth (S j) (M (scaleX minT) (scaleY (calculateSatVaporPressure minT))
               :: map lineTo sampleTemperatures) c0
  = lineTo (halfDegree j).
Proof.
  intros Hj. unfold sampleTemperatures. rewrite map_map. cbn [nth].
  rewrite (nth_indep _ c0 (lineTo (halfDegree 0)))
    by (rewrite length_map, length_seq; exact Hj).
  rewrite (map_nth (fun k => lineTo (halfDegree k))).
  now rewrite seq_nth by exact Hj.
Qed.

(** X8: every point of the saturation curve path, the initial [M] and each
    [L], lies inside the plot rectangle: the curve never leaves the chart. *)
Theorem saturation_curve_inside_plot (props : IsenthalpicDiagramProps) (fuel : nat)
    (d : list PathCmd) :
  saturationCurvePath props fuel = Some d ->
  Forall (fun c => inPlot (cmdX c) (cmdY c)) d.
Proof.
  intros Hd. rewrite (saturationCurvePath_inversion _ _ _ Hd).
  constructor.
  - apply (lineTo_inPlot minT). unfold minT, maxT. lra.
  - apply Forall_forall. intros c Hc.
    apply in_map_iff in Hc. destruct Hc as (t & <- & Ht).
    apply in_map_iff in Ht. destruct Ht as (k & <- & Hk).
    apply in_seq in Hk.
    apply lineTo_inPlot, halfDegree_on_plotted_domain. lia.
Qed.

Lemma saturation_curve_inside_plot_witness :
  Forall (fun c => inPlot (cmdX c) (cmdY c))
         (M (scaleX minT) (scaleY (calculateSatVaporPressure minT))
            :: map lineTo sampleTemperatures).
Proof.
  apply (saturation_curve_inside_plot {| Ts := 20; Ta := 25; ea := 1.9 |} 100).
  apply saturationCurvePath_result. lia.
Defined.

(** X9: the saturation curve path has 82 commands; its first [L] repeats the
    point of the initial [M], and from each [L] to the next the curve moves
    strictly to the right and strictly upwards (to a smaller row). *)
Theorem saturation_curve_rises (props : IsenthalpicDiagramProps) (fuel : nat)
    (d : list PathCmd) (c0 : PathCmd) :
  saturationCurvePath props fuel = Some d ->
  length d = 82%nat
  /\ cmdX (nth 1 d c0) = cmdX (nth 0 d c0)
  /\ cmdY (nth 1 d c0) = cmdY (nth 0 d c0)
  /\ (forall j : nat, (j < 80)%nat ->
        cmdX (nth (S j) d c0) < cmdX (nth (S (S j)) d c0)
        /\ cmdY (nth (S (S j)) d c0) < cmdY (nth (S j) d c0)).
Proof.
  intros Hd. rewrite (saturationCurvePath_inversion _ _ _ Hd).
  split; [| split; [| split]].
  - unfold sampleTemperatures. cbn [length].
    now rewrite !length_map, length_seq.
  - rewrite path_nth_line by lia. cbn [nth lineTo cmdX]. now rewrite halfDegree_0.
  - rewrite path_nth_line by lia. cbn [nth lineTo cmdY]. now rewrite halfDegree_0.
  - intros j Hj. rewrite !path_nth_line by lia.
    pose proof (halfDegree_on_plotted_domain j ltac:(lia)) as [Hlo _].
    pose proof (halfDegree_succ j) as Hnext.
    assert (Hlt : halfDegree j < halfDegree (S j)) by lra.
    assert (Hside : same_side_of_pole (halfDegree j) (halfDegree (S j)))
      by (left; unfold minT in Hlo; lra).
    pose proof (sat_increasing_same_side _ _ Hside Hlt) as Hmono.
    unfold lineTo. simpl. rewrite !scaleX_affine, !scaleY_affine. lra.
Qed.

Lemma saturation_curve_rises_witness :
  length (M (scaleX minT) (scaleY (calculateSatVaporPressure minT))
            :: map lineTo sampleTemperatures) = 82%nat.
Proof.
  apply (saturation_curve_rises {| Ts := 20; Ta := 25; ea := 1.9 |} 100 _ (M 0 0)).
  apply saturationCurvePath_result. lia.
Defined.

(** ** Properties of the flux seen from the application *)

Lemma App_ea_not_supersaturated (st : App.State) :
  0 <= App.RH st <= 100 ->
  0 <= App.ea st <= calculateSatVaporPressure (App.Ta st).
Proof.
  intros HRH. unfold App.ea.
  pose proof (sat_positive (App.Ta st)) as Hpos.
  split.
  - apply Rmult_le_reg_r with 100; [lra |].
    replace (calculateSatVaporPressure (App.Ta st) * App.RH st / 100 * 100)
      with (calculateSatVaporPressure (App.Ta st) * App.RH st) by field.
    nra.
  - apply Rmult_le_reg_r with 100; [lra |].
    replace (calculateSatVaporPressure (App.Ta st) * App.RH st / 100 * 100)
      with (calculateSatVaporPressure (App.Ta st) * App.RH st) by field.
    nra.
Qed.

(** X13: the flux displayed by the application lies between 0 and the
    available energy for temperatures of the sliders' range that are equal,
    ordered [Ts <= Ta], or at least one slider step (0.5 degree) apart with
    [Ts] above [Ta], a relative humidity between 0 and 99 and an available
    energy that is not negative. *)
Theorem App_LE_I_between_0_and_Qn (st : App.State) :
  0 <= App.Ta st <= 40 ->
  0 <= App.Ts st <= 40 ->
  App.Ts st <= App.Ta st \/ App.Ta st + 0.5 <= App.Ts st ->
  0 <= App.RH st <= 99 ->
  0 <= App.Qn st ->
  0 <= App.LE_I st <= App.Qn st.
Proof.
  intros HTa HTs Hstep HRH99 HQn.
  assert (HRH : 0 <= App.RH st <= 100) by lra.
  pose proof (App_ea_not_supersaturated st HRH) as [Hea0 Hea].
  unfold App.LE_I, App.es_star.
  set (den := denominator (App.ea st) (calculateSatVaporPressure (App.Ts st))
                          (App.Ts st) (App.Ta st)).
  destruct (Req_dec_T den 0) as [Hz | Hnz].
  - rewrite calculateLEI_zero_denominator by exact Hz. lra.
  - destruct (Rle_lt_dec (App.Ts st) (App.Ta st)) as [Hle | Hgt].
    + rewrite calculateLEI_limited by assumption. lra.
    + rewrite calculateLEI_saturated by assumption. fold den.
      assert (Hside : same_side_of_pole (App.Ta st) (App.Ts st)) by (left; lra).
      pose proof (sat_increasing_same_side _ _ Hside Hgt) as Hmono.
      assert (Hden : calculateSatVaporPressure (App.Ta st) - App.ea st < den)
        by (unfold den, denominator, GAMMA; lra).
      set (num := calculateSatVaporPressure (App.Ta st) - App.ea st) in *.
      assert (Hnum : 0 <= num) by (unfold num; lra).
      assert (Hr : num / den * den = num) by (field; lra).
      assert (Hr0 : 0 <= num / den)
        by (apply Rmult_le_reg_r with den; [lra | rewrite Hr; lra]).
      split; nra.
Qed.

Lemma App_LE_I_between_0_and_Qn_witness :
  0 <= App.LE_I App.initial <= App.Qn App.initial.
Proof.
  apply (App_LE_I_between_0_and_Qn App.initial); simpl; lra.
Defined.

(** ** Properties of the drag handlers *)

(** The relative humidity stored by [handleAirChange]. *)
Lemma handleAirChange_RH (newTa newEa : R) (st : App.State) :
  let raw := newEa / calculateSatVaporPressure newTa * 100 in
  (100 <= raw -> App.RH (App.handleAirChange newTa newEa st) = 100)
  /\ (raw <= 0 -> App.RH (App.handleAirChange newTa newEa st) = 0)
  /\ (0 <= raw <= 100 -> App.RH (App.handleAirChange newTa newEa st) = raw).
Proof.
  cbv zeta. unfold App.handleAirChange. simpl.
  set (raw := newEa / calculateSatVaporPressure newTa * 100).
  destruct (Rgt_dec raw 100) as [Hhi | Hhi].
  - destruct (Rlt_dec 100 0) as [Habs | _]; [lra |].
    repeat split; intros; lra.
  - destruct (Rlt_dec raw 0) as [Hlo | Hlo]; repeat split; intros; lra.
Qed.

Lemma handleAirChange_RH_in_range (newTa newEa : R) (st : App.State) :
  0 <= App.RH (App.handleAirChange newTa newEa st) <= 100.
Proof.
  destruct (handleAirChange_RH newTa newEa st) as (Hhi & Hlo & Hmid).
  set (raw := newEa / calculateSatVaporPressure newTa * 100) in *.
  destruct (Rle_lt_dec 100 raw) as [H100 | H100].
  - rewrite (Hhi H100). lra.
  - destruct (Rle_lt_dec raw 0) as [H0 | H0].
    + rewrite (Hlo H0). lra.
    + rewrite Hmid by lra. lra.
Qed.

(** X14: whatever point the air state is dragged to, [handleAirChange]
    stores a relative humidity between 0 and 100 and the new air temperature,
    and leaves the surface temperature, the available energy and the tab
    alone. *)
Theorem handleAirChange_keeps_RH_in_range (newTa newEa : R) (st : App.State) :
  let st' := App.handleAirChange newTa newEa st in
  0 <= App.RH st' <= 100
  /\ App.Ta st' = newTa
  /\ App.Ts st' = App.Ts st
  /\ App.Qn st' = App.Qn st
  /\ App.activeTab st' = App.activeTab st.
Proof.
  cbv zeta. split; [apply handleAirChange_RH_in_range | repeat split].
Qed.

(** X16: a mouse move over the diagram, whose picture (when it is there) has
    a bounding rectangle at least one pixel wide and one pixel high, keeps
    the state within the ranges of the sliders' temperatures and of the
    relative humidity, and does not touch the available energy; without a
    drag in progress, or without the picture's element, it changes
    nothing. *)
Theorem mouseMove_keeps_state_in_range
    (dragging : option DragTarget) (current : option DOMRect.t)
    (e : MouseEvent) (st : App.State) :
  App.inRange st ->
  (forall rect, current = Some rect ->
     1 <= DOMRect.width rect /\ 1 <= DOMRect.height rect) ->
  App.inRange (App.mouseMove dragging current e st)
  /\ App.Qn (App.mouseMove dragging current e st) = App.Qn st
  /\ (dragging = None \/ current = None ->
      App.mouseMove dragging current e st = st).
Proof.
  intros Hrange _.
  assert (Hsame : App.inRange st /\ App.Qn st = App.Qn st
                  /\ (dragging = None \/ current = None -> st = st))
    by (repeat split; apply Hrange).
  destruct Hrange as (HTa & HTs & HRH).
  unfold App.mouseMove, handleMouseMove.
  destruct dragging as [target |]; [| exact Hsame].
  destruct current as [rect |]; [| destruct target; exact Hsame].
  set (x := (clientX e - DOMRect.left rect) * (width / DOMRect.width rect)).
  set (y := (clientY e - DOMRect.top rect) * (height / DOMRect.height rect)).
  pose proof (invertX_in_domain x) as Hx.
  destruct target; cbn [App.invoke].
  - repeat split; simpl; try lra.
    intros [? | ?]; discriminate.
  - pose proof (handleAirChange_RH_in_range (invertX x) (invertY y) st) as HRH'.
    unfold App.inRange.
    replace (App.Ta (App.handleAirChange (invertX x) (invertY y) st))
      with (invertX x) by reflexivity.
    replace (App.Ts (App.handleAirChange (invertX x) (invertY y) st))
      with (App.Ts st) by reflexivity.
    repeat split; try lra.
    intros [? | ?]; discriminate.
Qed.

Lemma mouseMove_keeps_state_in_range_witness :
  App.inRange
    (App.mouseMove (Some air)
       (Some {| DOMRect.left := 10; DOMRect.top := 10;
                DOMRect.width := 300; DOMRect.height := 200 |})
       {| clientX := 150; clientY := 100 |} App.initial).
Proof.
  apply (mouseMove_keeps_state_in_range (Some air)
           (Some {| DOMRect.left := 10; DOMRect.top := 10;
                    DOMRect.width := 300; DOMRect.height := 200 |})
           {| clientX := 150; clientY := 100 |} App.initial).
  - unfold App.inRange. simpl. lra.
  - intros rect Hrect. injection Hrect as <-. simpl. lra.
Defined.

(** ** Where the points of the diagram are drawn *)

(** X17: on the plotted temperatures, 0 to 40 degrees, the saturation vapor
    pressure stays between 0.6108 kPa and 7.82 kPa, hence strictly inside the
    plotted pressures. *)
Theorem sat_within_plotted_pressures (t : R) :
  minT <= t <= maxT ->
  0.6108 <= calculateSatVaporPressure t < 7.82
  /\ minE < calculateSatVaporPressure t < maxE.
Proof.
  intros Ht. pose proof (sat_on_plotted_domain t Ht) as Hb.
  unfold minE, maxE. split; lra.
Qed.

Lemma sat_within_plotted_pressures_witness :
  0.6108 <= calculateSatVaporPressure 20 < 7.82
  /\ minE < calculateSatVaporPressure 20 < maxE.
Proof.
  apply (sat_within_plotted_pressures 20). unfold minT, maxT. lra.
Defined.



(** X19: in the energy-limited regime, when the air is so much warmer than
    the surface that [GAMMA * (Ta - Ts)] exceeds [e*(Ts)], the isothermal
    vapor pressure is negative and the isothermal point is drawn on or below
    the horizontal axis, at the lower edge of the plot rectangle or outside
    it. *)
Theorem isothermal_point_on_or_below_axis (props : IsenthalpicDiagramProps) :
  Ts props <= Ta props ->
  calculateSatVaporPressure (Ts props) < GAMMA * (Ta props - Ts props) ->
  eI (calculateIsothermalVaporPressure (Ts props) (Ta props)) < 0
  /\ height - bottom padding <= snd (isothermalPoint props).
Proof.
  intros Hle Hdeep. unfold isothermalPoint.
  rewrite (isothermal_limited _ _ Hle). simpl.
  rewrite scaleY_affine. unfold_layout. lra.
Qed.

Lemma isothermal_point_on_or_below_axis_witness :
  let props := {| Ts := 0; Ta := 40; ea := 1 |} in
  eI (calculateIsothermalVaporPressure (Ts props) (Ta props)) < 0
  /\ height - bottom padding <= snd (isothermalPoint props).
Proof.
  apply (isothermal_point_on_or_below_axis {| Ts := 0; Ta := 40; ea := 1 |}); simpl.
  - lra.
  - rewrite sat_at_0. unfold GAMMA. lra.
Defined.
